(** * Login and not-found pages of the merchant front end

    A shallow embedding of [frontend/src/pages/LoginPage.tsx] and
    [frontend/src/pages/NotFoundPage.tsx].

    - [Js]: the fragment of JavaScript values the login handler inspects
      (truthiness, optional chaining, [||], [instanceof Error]).
    - [Api], [Router]: the two collaborators the page talks to.
    - [Dom]: the element tree a component returns.
    - [LoginPage]: component state, the [handleSubmit] handler written as a
      program over the effects it performs, and the rendered view.
    - [NotFoundPage]: the static view.  *)

From stdpp Require Import base option list strings gmap.
From Stdlib Require Import ZArith.

Local Open Scope string_scope.

(* Nested inductive types below keep their plain induction schemes. *)
Set Warnings "-register-all".

(** ** JavaScript values *)

Module Js.

(** [location] is typed [any] and a [catch] variable is [unknown], so the
    handler may meet any value.  Plain objects are finite maps from property
    names to values; an [Error] instance carries its [message]. *)
Inductive value : Type :=
| VUndefined
| VNull
| VBool (b : bool)
| VNumber (n : Z)
| VNaN
| VString (s : string)
| VError (message : string)
| VObject (props : gmap string value).

(** ToBoolean: [undefined], [null], [false], [0], [NaN] and the empty string
    are falsy, everything else (every object included) is truthy. *)
Definition truthy (v : value) : bool :=
  match v with
  | VUndefined | VNull | VNaN => false
  | VBool b => b
  | VNumber n => negb (n =? 0)%Z
  | VString s => negb (String.eqb s "")
  | VError _ | VObject _ => true
  end.

Definition nullish (v : value) : bool :=
  match v with
  | VUndefined | VNull => true
  | _ => false
  end.

(** [o.p] on a value that is not nullish.  Own properties of plain objects
    and [message] of an error are modelled; a property that is absent reads as
    [undefined].  Properties inherited from the built-in prototypes are not
    modelled (none of them is named [from] or [pathname]). *)
Definition get (o : value) (p : string) : value :=
  match o with
  | VObject props => default VUndefined (props !! p)
  | VError message => if String.eqb p "message" then VString message else VUndefined
  | _ => VUndefined
  end.

(** [o?.p] *)
Definition opt_get (o : value) (p : string) : value :=
  if nullish o then VUndefined else get o p.

(** [a || b] *)
Definition or (a b : value) : value :=
  if truthy a then a else b.

(** [v instanceof Error] *)
Definition instanceof_Error (v : value) : bool :=
  match v with
  | VError _ => true
  | _ => false
  end.

(** [e.message] once [e] has been narrowed to [Error]; the second branch is
    never reached behind an [instanceof Error] test. *)
Definition message (e : value) : string :=
  match e with
  | VError message => message
  | _ => ""
  end.

(** Object literal [{ k1: v1, ... }]. *)
Definition obj (kvs : list (string * value)) : value :=
  VObject (list_to_map kvs).

End Js.

(** ** Collaborators *)

Module Api.

(** Modelled from the spec: the module [../api/client] is not part of the
    sources at hand.  Its [login] operation takes [(email, password)] and
    asynchronously produces either a success value containing at least a
    merchant identity (with an email field) or a failure carrying a value. *)
Record Merchant : Type := { email : string }.
Record LoginResult : Type := { merchant : Merchant }.

(** How the promise returned by [api.login] settles: fulfilled with a result
    or rejected with an arbitrary value. *)
Inductive settled : Type :=
| Fulfilled (result : LoginResult)
| Rejected (reason : Js.value).

(** The collaborator as seen from the page. *)
Definition client : Type := string -> string -> settled.

End Api.

Module Router.

(** What [useLocation()] returns; only [state] is read by the page. *)
Record Location : Type := { state : Js.value }.

(** Modelled from the spec: the routing collaborator provides an imperative
    navigation operation supporting "replace current history entry".  The
    session history is the entries behind the current one (most recent
    first) and the current entry. *)
Record History : Type := { behind : list Js.value; current : Js.value }.

Definition navigate (to : Js.value) (replace : bool) (h : History) : History :=
  if replace
  then {| behind := behind h; current := to |}
  else {| behind := current h :: behind h; current := to |}.

(** The entry shown after pressing the back button. *)
Definition back (h : History) : option Js.value := head (behind h).

End Router.

(** ** Element trees *)

Module Dom.

(** The callbacks the login page attaches to its elements. *)
Inductive handler : Type :=
| OnSubmit
| OnEmailChange
| OnPasswordChange.

Inductive prop : Type :=
| PStr (s : string)
| PBool (b : bool)
| PHandler (h : handler).

(** A JSX child: nothing ([null]), a string, or an element with its
    properties and children. *)
Inductive node : Type :=
| NEmpty
| NText (s : string)
| NElem (tag : string) (props : list (string * prop)) (children : list node).

(** [{v}] for a [v] of type [string | null]. *)
Definition child (v : option string) : node :=
  match v with
  | None => NEmpty
  | Some s => NText s
  end.

Definition nullable (v : option string) : Js.value :=
  match v with
  | None => Js.VNull
  | Some s => Js.VString s
  end.

(** [{cond && elem}] for a [cond] of type [string | null]: the element when
    [cond] is truthy, otherwise the falsy value of [cond] itself. *)
Definition and_then (cond : option string) (elem : node) : node :=
  if Js.truthy (nullable cond) then elem else child cond.

Definition prop_of (name : string) (n : node) : option prop :=
  match n with
  | NElem _ props _ => snd <$> List.find (fun kv => String.eqb (fst kv) name) props
  | _ => None
  end.

Definition tag_is (t : string) (n : node) : bool :=
  match n with
  | NElem tag _ _ => String.eqb tag t
  | _ => false
  end.

(** Every element of the tree, in document order. *)
Fixpoint elements (n : node) : list node :=
  match n with
  | NElem _ _ children => n :: List.flat_map elements children
  | _ => []
  end.

(** The text the tree shows, in document order. *)
Fixpoint text (n : node) : string :=
  match n with
  | NEmpty => ""
  | NText s => s
  | NElem _ _ children => List.fold_right (fun c acc => text c ++ acc) "" children
  end.

Definition by_tag (t : string) (n : node) : list node :=
  List.filter (tag_is t) (elements n).

Definition has_class (c : string) (n : node) : bool :=
  match prop_of "className" n with
  | Some (PStr s) => String.eqb s c
  | _ => false
  end.

Definition by_class (c : string) (n : node) : list node :=
  List.filter (has_class c) (elements n).

(** Destinations of the [Link] elements of the tree. *)
Definition links (n : node) : list prop :=
  omap (prop_of "to") (by_tag "Link" n).

End Dom.

(** ** The login page *)

Module LoginPage.

Import Dom.

(** The four [useState] cells of the component. *)
Record State : Type := {
  email : string;
  password : string;
  loading : bool;
  error : option string
}.

Definition initial : State :=
  {| email := ""; password := ""; loading := false; error := None |}.

Definition setEmail (v : string) (s : State) : State :=
  {| email := v; password := password s; loading := loading s; error := error s |}.

Definition setPassword (v : string) (s : State) : State :=
  {| email := email s; password := v; loading := loading s; error := error s |}.

Definition setLoading (b : bool) (s : State) : State :=
  {| email := email s; password := password s; loading := b; error := error s |}.

Definition setError (e : option string) (s : State) : State :=
  {| email := email s; password := password s; loading := loading s; error := e |}.

(** *** Effects of the submit handler *)

(** Everything [handleSubmit] does to the outside: the form event, two state
    setters, the authentication call, the console and the router. *)
Inductive effect : Type :=
| PreventDefault
| SetLoading (b : bool)
| SetError (e : option string)
| ApiLogin (email password : string)
| ConsoleLog (args : list Js.value)
| Navigate (to : Js.value) (replace : bool).

(** What the handler gets back from an effect.  Only the authentication call
    answers with something: the way its promise settles. *)
Definition answer (e : effect) : Type :=
  match e with
  | ApiLogin _ _ => Api.settled
  | _ => unit
  end.

(** Handler code: it returns, throws, or performs an effect and goes on with
    the answer. *)
Inductive prog (A : Type) : Type :=
| Ret (a : A)
| Throw (v : Js.value)
| Do (e : effect) (k : answer e -> prog A).

Arguments Ret {A} a.
Arguments Throw {A} v.
Arguments Do {A} e k.

Fixpoint bind {A B : Type} (p : prog A) (f : A -> prog B) : prog B :=
  match p with
  | Ret a => f a
  | Throw v => Throw v
  | Do e k => Do e (fun x => bind (k x) f)
  end.

#[global] Instance prog_ret : MRet prog := @Ret.
#[global] Instance prog_bind : MBind prog := fun A B f p => bind p f.

(** [try { body } catch (err) { handle err }] *)
Fixpoint try_catch {A : Type} (body : prog A) (handle : Js.value -> prog A) : prog A :=
  match body with
  | Ret a => Ret a
  | Throw v => handle v
  | Do e k => Do e (fun x => try_catch (k x) handle)
  end.

(** [try { body } finally { cleanup }]: [cleanup] runs on both exits and the
    exit of [body] is kept unless [cleanup] throws itself. *)
Fixpoint try_finally {A : Type} (body : prog A) (cleanup : prog unit) : prog A :=
  match body with
  | Ret a => cleanup ;; Ret a
  | Throw v => cleanup ;; Throw v
  | Do e k => Do e (fun x => try_finally (k x) cleanup)
  end.

Definition try_catch_finally {A : Type}
    (body : prog A) (handle : Js.value -> prog A) (cleanup : prog unit) : prog A :=
  try_finally (try_catch body handle) cleanup.

(** An effect whose answer carries no information. *)
Definition perform (e : effect) : prog unit :=
  Do e (fun _ => Ret tt).

(** [await api.login(email, password)]: the result when the promise is
    fulfilled, a throw of the reason when it is rejected. *)
Definition await_login (email password : string) : prog Api.LoginResult :=
  Do (ApiLogin email password) (fun s : Api.settled =>
    match s with
    | Api.Fulfilled result => Ret result
    | Api.Rejected reason => Throw reason
    end).

(** *** handleSubmit *)

(** The right-hand side of [const from = ...]. *)
Definition from (location : Router.Location) : Js.value :=
  Js.or (Js.opt_get (Js.opt_get (Router.state location) "from") "pathname")
        (Js.VString "/orders").

(** What [err] is turned into for display in the [catch] block. *)
Definition display (err : Js.value) : string :=
  if Js.instanceof_Error err then Js.message err else "Login failed".

Definition handleSubmit (location : Router.Location) (email password : string) : prog unit :=
  perform PreventDefault ;;
  perform (SetLoading true) ;;
  perform (SetError None) ;;
  try_catch_finally
    (result ← await_login email password;
     let from := from location in
     perform (ConsoleLog [Js.VString "Logged in as";
                          Js.VString (Api.email (Api.merchant result))]) ;;
     perform (Navigate from true))
    (fun err => perform (SetError (Some (display err))))
    (perform (SetLoading false)).

(** *** Running a handler *)

(** What a handler can change: the component state, the submit event, the
    session history, and the record of every effect in the order performed. *)
Record World : Type := {
  st : State;
  defaultPrevented : bool;
  history : Router.History;
  trace : list effect
}.

Definition world_of (s : State) (h : Router.History) : World :=
  {| st := s; defaultPrevented := false; history := h; trace := [] |}.

Definition apply (e : effect) (w : World) : World :=
  {| st := match e with
           | SetLoading b => setLoading b (st w)
           | SetError msg => setError msg (st w)
           | _ => st w
           end;
     defaultPrevented := match e with
                         | PreventDefault => true
                         | _ => defaultPrevented w
                         end;
     history := match e with
                | Navigate to replace => Router.navigate to replace (history w)
                | _ => history w
                end;
     trace := trace w ++ [e] |}.

Inductive outcome (A : Type) : Type :=
| Returned (a : A)
| Threw (v : Js.value).

Arguments Returned {A} a.
Arguments Threw {A} v.

(** A handler either ran to its end or is suspended at the [await], holding
    the rest of its code. *)
Inductive status (A : Type) : Type :=
| Done (o : outcome A)
| Pending (email password : string) (k : Api.settled -> prog A).

Arguments Done {A} o.
Arguments Pending {A} email password k.

(** The synchronous part: run until the end or until the authentication call
    has been issued. *)
Fixpoint start {A : Type} (p : prog A) (w : World) : status A * World :=
  match p with
  | Ret a => (Done (Returned a), w)
  | Throw v => (Done (Threw v), w)
  | Do e k =>
      match e as e0 return (answer e0 -> prog A) -> status A * World with
      | ApiLogin em pw => fun k => (Pending em pw k, apply (ApiLogin em pw) w)
      | PreventDefault => fun k => start (k tt) (apply PreventDefault w)
      | SetLoading b => fun k => start (k tt) (apply (SetLoading b) w)
      | SetError msg => fun k => start (k tt) (apply (SetError msg) w)
      | ConsoleLog args => fun k => start (k tt) (apply (ConsoleLog args) w)
      | Navigate to replace => fun k => start (k tt) (apply (Navigate to replace) w)
      end k
  end.

(** The answer a given collaborator gives to an effect. *)
Definition respond (api : Api.client) (e : effect) : answer e :=
  match e with
  | ApiLogin em pw => api em pw
  | _ => tt
  end.

(** The whole handler, against a collaborator that settles every call. *)
Fixpoint run {A : Type} (api : Api.client) (p : prog A) (w : World) : outcome A * World :=
  match p with
  | Ret a => (Returned a, w)
  | Throw v => (Threw v, w)
  | Do e k => run api (k (respond api e)) (apply e w)
  end.

(** The form's [onSubmit]: the handler closes over the [email] and
    [password] of the render it belongs to. *)
Definition submit_begin (location : Router.Location) (w : World) : status unit * World :=
  start (handleSubmit location (email (st w)) (password (st w))) w.

Definition submit (api : Api.client) (location : Router.Location) (w : World)
  : outcome unit * World :=
  run api (handleSubmit location (email (st w)) (password (st w))) w.

(** Destinations and [replace] flags of the navigations performed. *)
Definition navigations (t : list effect) : list (Js.value * bool) :=
  omap (fun e => match e with
                 | Navigate to replace => Some (to, replace)
                 | _ => None
                 end) t.

(** *** The view *)

Definition error_class : string := "rounded-md bg-red-50 p-3 text-sm text-red-800".

(** [{error && (<div ...>{error}</div>)}] *)
Definition error_region (s : State) : node :=
  and_then (error s)
    (NElem "div" [("className", PStr error_class)] [child (error s)]).

Definition submit_button (s : State) : node :=
  NElem "Button"
    [("type", PStr "submit"); ("className", PStr "w-full"); ("disabled", PBool (loading s))]
    [NText (if loading s then "Signing in..." else "Sign in")].

Definition render (s : State) : node :=
  NElem "div"
    [("className", PStr "flex min-h-screen items-center justify-center bg-background px-4 sm:px-6 lg:px-8")]
    [NElem "div"
       [("className", PStr "w-full max-w-md rounded-lg border bg-card shadow-sm p-4 sm:px-6 lg:px-8")]
       [NElem "h1" [("className", PStr "mb-2 text-2xl font-bold")] [NText "Merchant Login"];
        NElem "p" [("className", PStr "mb-6 text-sm text-muted-foreground")]
          [NText "Sign in with your merchant email and password."];
        NElem "form" [("onSubmit", PHandler OnSubmit); ("className", PStr "space-y-4")]
          [NElem "div" [("className", PStr "space-y-2")]
             [NElem "label" [("className", PStr "text-sm font-medium"); ("htmlFor", PStr "email")]
                [NText "Email"];
              NElem "Input"
                [("id", PStr "email");
                 ("type", PStr "email");
                 ("autoComplete", PStr "email");
                 ("value", PStr (email s));
                 ("onChange", PHandler OnEmailChange);
                 ("required", PBool true)]
                []];
           NElem "div" [("className", PStr "space-y-2")]
             [NElem "label" [("className", PStr "text-sm font-medium"); ("htmlFor", PStr "password")]
                [NText "Password"];
              NElem "Input"
                [("id", PStr "password");
                 ("type", PStr "password");
                 ("autoComplete", PStr "current-password");
                 ("value", PStr (password s));
                 ("onChange", PHandler OnPasswordChange);
                 ("required", PBool true)]
                []];
           error_region s;
           submit_button s]]].

(** *** Vocabulary of the specification *)

(** The pathname supplied in the incoming navigation context, when there is
    one: the [pathname] property of the object at [location.state.from]. *)
Definition supplied_pathname (location : Router.Location) : option Js.value :=
  match Router.state location with
  | Js.VObject st =>
      match st !! "from" with
      | Some (Js.VObject fr) => fr !! "pathname"
      | _ => None
      end
  | _ => None
  end.

(** The world once the handler has finished against a collaborator. *)
Definition submitted (api : Api.client) (location : Router.Location) (w : World) : World :=
  snd (submit api location w).

(** The world while the authentication call is in flight. *)
Definition in_flight (w : World) : World :=
  apply (ApiLogin (email (st w)) (password (st w)))
    (apply (SetError None) (apply (SetLoading true) (apply PreventDefault w))).

End LoginPage.

(** ** The not-found page *)

Module NotFoundPage.

Import Dom.

(** The component takes no properties and reads no hook. *)
Definition NotFoundPage : node :=
  NElem "div"
    [("className", PStr "flex flex-col items-center justify-center text-center gap-4 py-16")]
    [NElem "div" []
       [NElem "p" [("className", PStr "text-sm font-semibold text-primary tracking-wider")]
          [NText "404"];
        NElem "h1" [("className", PStr "mt-2 text-3xl font-bold")] [NText "Page not found"];
        NElem "p" [("className", PStr "mt-2 text-muted-foreground max-w-md")]
          [NText "The page you are looking for doesn't exist or was moved. Use the navigation or go back to the dashboard."]];
     NElem "div" [("className", PStr "flex flex-wrap gap-3")]
       [NElem "Link"
          [("to", PStr "/orders");
           ("className", PStr "inline-flex items-center justify-center rounded-md bg-primary px-4 py-2 text-sm font-medium text-primary-foreground hover:bg-primary/90")]
          [NText "Go to Orders"];
        NElem "Link"
          [("to", PStr "/");
           ("className", PStr "inline-flex items-center justify-center rounded-md border px-4 py-2 text-sm font-medium")]
          [NText "Back to dashboard"]]].

End NotFoundPage.

(** ** Sample inputs *)

Module Samples.

Import LoginPage.

Definition shop : Api.LoginResult :=
  {| Api.merchant := {| Api.email := "shop@example.com" |} |}.

Definition accepting : Api.client :=
  fun _ _ => Api.Fulfilled shop.

Definition rejecting (reason : Js.value) : Api.client :=
  fun _ _ => Api.Rejected reason.

(** [{ from: { pathname: p } }] *)
Definition came_from (p : Js.value) : Router.Location :=
  {| Router.state := Js.obj [("from", Js.obj [("pathname", p)])] |}.

Definition no_context : Router.Location :=
  {| Router.state := Js.VNull |}.

(** A filled-in form showing the error of an earlier attempt, reached from
    the dashboard root. *)
Definition filled : World :=
  world_of
    {| email := "shop@example.com"; password := "hunter2";
       loading := false; error := Some "Invalid credentials" |}
    {| Router.behind := [Js.VString "/"]; Router.current := Js.VString "/login" |}.

(** The same form when the login page is also the entry behind the current
    one, as after opening the login page twice in a row. *)
Definition revisited : World :=
  world_of (st filled)
    {| Router.behind := [Js.VString "/login"]; Router.current := Js.VString "/login" |}.

End Samples.

(** ** Using the page *)

Module Interaction.

Import Dom LoginPage.

(** The two [onChange] callbacks, [(e) => setEmail(e.target.value)] and
    [(e) => setPassword(e.target.value)], applied to [e.target.value].  The
    submit callback is not a change callback and leaves the state alone. *)
Definition onChange (h : handler) (value : string) (s : State) : State :=
  match h with
  | OnEmailChange => setEmail value s
  | OnPasswordChange => setPassword value s
  | OnSubmit => s
  end.

Definition has_id (i : string) (n : node) : bool :=
  match prop_of "id" n with
  | Some (PStr s) => String.eqb s i
  | _ => false
  end.

(** The [Input] of the view with the given [id], when there is one. *)
Definition input_by_id (i : string) (s : State) : option node :=
  List.find (has_id i) (by_tag "Input" (render s)).

(** The user changes the text of the input [i] to [value]: the [onChange]
    callback attached to that input runs. *)
Definition type_into (i : string) (value : string) (s : State) : State :=
  match input_by_id i s with
  | Some n =>
      match prop_of "onChange" n with
      | Some (PHandler h) => onChange h value s
      | _ => s
      end
  | None => s
  end.

(** The text the input [i] shows. *)
Definition value_of (i : string) (s : State) : option prop :=
  match input_by_id i s with
  | Some n => prop_of "value" n
  | None => None
  end.

(** A state change that comes from outside the submit handler. *)
Definition with_state (f : State -> State) (w : World) : World :=
  {| st := f (st w); defaultPrevented := defaultPrevented w;
     history := history w; trace := trace w |}.

(** The promise a suspended handler waits for settles: the handler goes on
    in the world as it is by then. *)
Definition resume {A : Type} (s : status A) (w : World) (settle : Api.settled)
  : status A * World :=
  match s with
  | Done o => (Done o, w)
  | Pending _ _ k => start (k settle) w
  end.

(** Credentials of the authentication calls of a record of effects. *)
Definition api_calls (t : list effect) : list (string * string) :=
  omap (fun e => match e with
                 | ApiLogin em pw => Some (em, pw)
                 | _ => None
                 end) t.

(** What a record of effects wrote to the console. *)
Definition console (t : list effect) : list (list Js.value) :=
  omap (fun e => match e with
                 | ConsoleLog args => Some args
                 | _ => None
                 end) t.

(** The effects that follow the answer of the collaborator. *)
Definition epilogue (location : Router.Location) (settle : Api.settled) : list effect :=
  match settle with
  | Api.Fulfilled result =>
      [ConsoleLog [Js.VString "Logged in as";
                   Js.VString (Api.email (Api.merchant result))];
       Navigate (from location) true;
       SetLoading false]
  | Api.Rejected reason =>
      [SetError (Some (display reason)); SetLoading false]
  end.

(** Callbacks attached anywhere in a tree. *)
Definition handlers (n : node) : list handler :=
  List.flat_map
    (fun el => match el with
               | NElem _ props _ =>
                   omap (fun kv => match snd kv with
                                   | PHandler h => Some h
                                   | _ => None
                                   end) props
               | _ => []
               end)
    (elements n).

End Interaction.

(** * Properties *)

Import LoginPage Dom.

Local Open Scope list_scope.

(** ** Running programs *)

Section Running.

Context {A : Type}.

(** Running against a collaborator is running the synchronous part and then,
    if the handler is suspended, going on with the collaborator's answer. *)
Lemma run_start (api : Api.client) (p : prog A) (w : World) :
  run api p w =
  match start p w with
  | (Done o, w') => (o, w')
  | (Pending em pw k, w') => run api (k (api em pw)) w'
  end.
Proof.
  revert w. induction p as [a | v | e k IH]; intros w; [reflexivity .. |].
  destruct e; simpl; try apply IH. reflexivity.
Qed.

(** Effects are only ever appended to the record. *)
Lemma run_trace_prefix (api : Api.client) (p : prog A) (w : World) :
  trace w `prefix_of` trace (snd (run api p w)).
Proof.
  revert w. induction p as [a | v | e k IH]; intros w; simpl; [done .. |].
  etrans; [| apply IH]. simpl. by apply prefix_app_r.
Qed.

End Running.

Lemma navigations_snoc (t : list effect) (e : effect) :
  navigations (t ++ [e]) = navigations t ++ navigations [e].
Proof. apply omap_app. Qed.

(** ** The three ways through handleSubmit *)

Section Submit.

Variable api : Api.client.
Variable location : Router.Location.
Variable w : World.

(** The handler is suspended at the authentication call, which it issues
    with the [email] and [password] of the current render. *)
Lemma submit_begin_pending :
  exists k, submit_begin location w =
            (Pending (email (st w)) (password (st w)) k, in_flight w).
Proof. eexists. reflexivity. Qed.

Lemma submit_fulfilled (result : Api.LoginResult) :
  api (email (st w)) (password (st w)) = Api.Fulfilled result ->
  submit api location w =
  (Returned tt,
   apply (SetLoading false)
     (apply (Navigate (from location) true)
        (apply (ConsoleLog [Js.VString "Logged in as";
                            Js.VString (Api.email (Api.merchant result))])
           (in_flight w)))).
Proof.
  intros Hapi. unfold submit, handleSubmit. simpl. rewrite Hapi. reflexivity.
Qed.

Lemma submit_rejected (reason : Js.value) :
  api (email (st w)) (password (st w)) = Api.Rejected reason ->
  submit api location w =
  (Returned tt,
   apply (SetLoading false) (apply (SetError (Some (display reason))) (in_flight w))).
Proof.
  intros Hapi. unfold submit, handleSubmit. simpl. rewrite Hapi. reflexivity.
Qed.

(** Nothing before the answer touches the router. *)
Lemma in_flight_navigations : navigations (trace (in_flight w)) = navigations (trace w).
Proof.
  unfold in_flight. cbn [apply trace]. rewrite !navigations_snoc.
  cbn [navigations omap list_omap]. by rewrite !app_nil_r.
Qed.

Lemma fulfilled_navigations (result : Api.LoginResult) :
  api (email (st w)) (password (st w)) = Api.Fulfilled result ->
  navigations (trace (submitted api location w)) =
  navigations (trace w) ++ [(from location, true)].
Proof.
  intros Hapi. unfold submitted. rewrite (submit_fulfilled _ Hapi).
  cbn [snd apply trace]. rewrite !navigations_snoc, in_flight_navigations.
  cbn [navigations omap list_omap]. by rewrite !app_nil_r.
Qed.

Lemma rejected_navigations (reason : Js.value) :
  api (email (st w)) (password (st w)) = Api.Rejected reason ->
  navigations (trace (submitted api location w)) = navigations (trace w).
Proof.
  intros Hapi. unfold submitted. rewrite (submit_rejected _ Hapi).
  cbn [snd apply trace]. rewrite !navigations_snoc, in_flight_navigations.
  cbn [navigations omap list_omap]. by rewrite !app_nil_r.
Qed.

End Submit.

(** ** The redirect target *)

Section RedirectTarget.

Variable location : Router.Location.

(** With a pathname in the navigation context, the optional chain reads
    exactly that value. *)
Lemma chain_supplied (p : Js.value) :
  supplied_pathname location = Some p ->
  Js.opt_get (Js.opt_get (Router.state location) "from") "pathname" = p.
Proof.
  unfold supplied_pathname.
  destruct (Router.state location) as [| | | | | | |m]; try discriminate.
  cbn [Js.opt_get Js.get Js.nullish].
  destruct (m !! "from") as [[| | | | | | |fr]|]; try discriminate.
  intros Hp. cbn. by rewrite Hp.
Qed.

(** Without one, the optional chain reads [undefined]. *)
Lemma chain_absent :
  supplied_pathname location = None ->
  Js.opt_get (Js.opt_get (Router.state location) "from") "pathname" = Js.VUndefined.
Proof.
  unfold supplied_pathname.
  destruct (Router.state location) as [| | | | | | |m]; try reflexivity.
  cbn [Js.opt_get Js.get Js.nullish].
  destruct (m !! "from") as [[| | | | | | |fr]|]; try reflexivity.
  intros Hp. cbn. by rewrite Hp.
Qed.

Lemma from_supplied_truthy (p : Js.value) :
  supplied_pathname location = Some p -> Js.truthy p = true -> from location = p.
Proof.
  intros Hp Ht. unfold from. rewrite (chain_supplied p Hp). unfold Js.or.
  by rewrite Ht.
Qed.

Lemma from_supplied_falsy (p : Js.value) :
  supplied_pathname location = Some p -> Js.truthy p = false ->
  from location = Js.VString "/orders".
Proof.
  intros Hp Ht. unfold from. rewrite (chain_supplied p Hp). unfold Js.or.
  by rewrite Ht.
Qed.

Lemma from_absent :
  supplied_pathname location = None -> from location = Js.VString "/orders".
Proof. intros Hp. unfold from. by rewrite (chain_absent Hp). Qed.

(** The target is never falsy, whatever the context holds. *)
Lemma from_truthy : Js.truthy (from location) = true.
Proof.
  unfold from, Js.or.
  by destruct (Js.truthy (Js.opt_get _ _)) eqn:E.
Qed.

End RedirectTarget.

(** ** The view *)

Section View.

Variable s : State.

Lemma render_buttons : by_tag "Button" (render s) = [submit_button s].
Proof.
  unfold by_tag, render, error_region, and_then.
  destruct (Js.truthy (nullable (error s))); destruct (error s); reflexivity.
Qed.

(** The form is part of the view in every state. *)
Lemma render_form : length (by_tag "form" (render s)) = 1.
Proof.
  unfold by_tag, render, error_region, and_then.
  destruct (Js.truthy (nullable (error s))); destruct (error s); reflexivity.
Qed.

(** The error region is on screen exactly for a non-empty message. *)
Lemma render_error_region :
  by_class error_class (render s) =
  match error s with
  | Some msg => if String.eqb msg "" then []
                else [NElem "div" [("className", PStr error_class)] [NText msg]]
  | None => []
  end.
Proof.
  unfold by_class, render, error_region, and_then.
  destruct (error s) as [msg|]; [| reflexivity].
  simpl Js.truthy. destruct (String.eqb msg ""); reflexivity.
Qed.

(** An empty message shows the same text as no message at all. *)
Lemma render_empty_message :
  error s = Some "" -> text (render s) = text (render (setError None s)).
Proof. destruct s as [em pw ld er]. simpl. by intros ->. Qed.

End View.

(** ** Claims about the login page *)

(** C1 as stated: after a successful login the handler navigates to the
    pathname supplied in the navigation context whenever one was supplied.
    This fails for the context [{ from: { pathname: "" } }]: the empty
    pathname is supplied, and the handler navigates to ["/orders"]. *)
Lemma redirect_to_supplied_pathname_counterexample :
  ~ (forall (api : Api.client) (location : Router.Location) (w : World)
            (result : Api.LoginResult) (p : Js.value),
       api (email (st w)) (password (st w)) = Api.Fulfilled result ->
       supplied_pathname location = Some p ->
       navigations (trace (submitted api location w)) =
       navigations (trace w) ++ [(p, true)]).
Proof.
  intros H.
  specialize (H Samples.accepting (Samples.came_from (Js.VString "")) Samples.filled
                _ (Js.VString "") eq_refl eq_refl).
  vm_compute in H. discriminate H.
Qed.

(** C1 (amended): after a successful login the handler performs exactly one
    navigation; it goes to the pathname supplied in the navigation context
    when one was supplied and is truthy, and to ["/orders"] when the context
    supplies none. *)
Theorem redirect_after_login
    (api : Api.client) (location : Router.Location) (w : World)
    (result : Api.LoginResult) :
  api (email (st w)) (password (st w)) = Api.Fulfilled result ->
  (forall p, supplied_pathname location = Some p -> Js.truthy p = true ->
     navigations (trace (submitted api location w)) =
     navigations (trace w) ++ [(p, true)]) /\
  (supplied_pathname location = None ->
     navigations (trace (submitted api location w)) =
     navigations (trace w) ++ [(Js.VString "/orders", true)]).
Proof.
  intros Hapi. rewrite (fulfilled_navigations _ _ _ _ Hapi).
  split.
  - intros p Hp Ht. by rewrite (from_supplied_truthy _ _ Hp Ht).
  - intros Hp. by rewrite (from_absent _ Hp).
Qed.

Lemma redirect_after_login_witness :
  navigations (trace (submitted Samples.accepting
                        (Samples.came_from (Js.VString "/dashboard/settings"))
                        Samples.filled)) =
  [(Js.VString "/dashboard/settings", true)] /\
  navigations (trace (submitted Samples.accepting Samples.no_context Samples.filled)) =
  [(Js.VString "/orders", true)].
Proof.
  split.
  - apply (proj1 (redirect_after_login Samples.accepting
                    (Samples.came_from (Js.VString "/dashboard/settings"))
                    Samples.filled _ eq_refl)
             (Js.VString "/dashboard/settings")); reflexivity.
  - apply (proj2 (redirect_after_login Samples.accepting Samples.no_context
                    Samples.filled _ eq_refl)); reflexivity.
Defined.

(** C2: when the collaborator rejects with an [Error] whose message is
    "Invalid credentials", the handler navigates nowhere, the error state is
    that message and it is the text of the error region on screen, and the
    submitting flag is reset so that the submit button is enabled again. *)
Theorem invalid_credentials_shown
    (api : Api.client) (location : Router.Location) (w : World) :
  api (email (st w)) (password (st w)) =
    Api.Rejected (Js.VError "Invalid credentials") ->
  navigations (trace (submitted api location w)) = navigations (trace w) /\
  history (submitted api location w) = history w /\
  length (by_tag "form" (render (st (submitted api location w)))) = 1 /\
  error (st (submitted api location w)) = Some "Invalid credentials" /\
  loading (st (submitted api location w)) = false /\
  by_class error_class (render (st (submitted api location w))) =
    [NElem "div" [("className", PStr error_class)] [NText "Invalid credentials"]] /\
  by_tag "Button" (render (st (submitted api location w))) =
    [NElem "Button"
       [("type", PStr "submit"); ("className", PStr "w-full"); ("disabled", PBool false)]
       [NText "Sign in"]].
Proof.
  intros Hapi. split; [exact (rejected_navigations _ _ _ _ Hapi) |].
  rewrite render_form, render_error_region, render_buttons.
  unfold submitted. rewrite (submit_rejected _ _ _ _ Hapi).
  repeat split.
Qed.

Lemma invalid_credentials_shown_witness :
  error (st (submitted (Samples.rejecting (Js.VError "Invalid credentials"))
               Samples.no_context Samples.filled)) = Some "Invalid credentials" /\
  loading (st (submitted (Samples.rejecting (Js.VError "Invalid credentials"))
                 Samples.no_context Samples.filled)) = false.
Proof.
  pose proof (invalid_credentials_shown
                (Samples.rejecting (Js.VError "Invalid credentials"))
                Samples.no_context Samples.filled eq_refl) as H.
  exact (conj (proj1 (proj2 (proj2 (proj2 H))))
              (proj1 (proj2 (proj2 (proj2 (proj2 H)))))).
Defined.

(** C3: when the collaborator rejects with a value that is not an [Error],
    the error state is set to the fallback text "Login failed". *)
Theorem non_error_rejection_falls_back
    (api : Api.client) (location : Router.Location) (w : World) (reason : Js.value) :
  Js.instanceof_Error reason = false ->
  api (email (st w)) (password (st w)) = Api.Rejected reason ->
  error (st (submitted api location w)) = Some "Login failed".
Proof.
  intros Hne Hapi. unfold submitted. rewrite (submit_rejected _ _ _ _ Hapi).
  cbn [snd apply st setLoading setError error]. unfold display. by rewrite Hne.
Qed.

Lemma non_error_rejection_falls_back_witness :
  error (st (submitted
               (Samples.rejecting (Js.obj [("message", Js.VString "Invalid credentials")]))
               Samples.no_context Samples.filled)) = Some "Login failed".
Proof.
  apply (non_error_rejection_falls_back
           (Samples.rejecting (Js.obj [("message", Js.VString "Invalid credentials")]))
           Samples.no_context Samples.filled
           (Js.obj [("message", Js.VString "Invalid credentials")])); reflexivity.
Defined.

(** C4: every invocation of the submit handler first prevents the default
    form submission, sets the submitting flag and clears the error, in that
    order, and only then calls the authentication collaborator; the handler
    is suspended on that call with the flag set and the error cleared, and
    whatever the collaborator answers comes after these four effects. *)
Theorem submit_prologue (location : Router.Location) (w : World) :
  (exists k, submit_begin location w =
             (Pending (email (st w)) (password (st w)) k, in_flight w)) /\
  trace (in_flight w) =
    trace w ++ [PreventDefault; SetLoading true; SetError None;
                ApiLogin (email (st w)) (password (st w))] /\
  defaultPrevented (in_flight w) = true /\
  loading (st (in_flight w)) = true /\
  error (st (in_flight w)) = None /\
  (forall api : Api.client,
     trace (in_flight w) `prefix_of` trace (submitted api location w)).
Proof.
  split; [apply submit_begin_pending |].
  split; [unfold in_flight; cbn [apply trace]; by rewrite <- !app_assoc |].
  do 3 (split; [reflexivity |]).
  intros api. unfold submitted, submit. rewrite run_start.
  destruct (submit_begin_pending location w) as [k Hk].
  unfold submit_begin in Hk. rewrite Hk. apply run_trace_prefix.
Qed.

(** C5: a failed submission leaves the email and password fields as they
    were; of the component state only the error and the submitting flag are
    written. *)
Theorem failed_submit_keeps_fields
    (api : Api.client) (location : Router.Location) (w : World) (reason : Js.value) :
  api (email (st w)) (password (st w)) = Api.Rejected reason ->
  email (st (submitted api location w)) = email (st w) /\
  password (st (submitted api location w)) = password (st w) /\
  st (submitted api location w) =
    {| email := email (st w); password := password (st w);
       loading := false; error := Some (display reason) |}.
Proof.
  intros Hapi. unfold submitted. rewrite (submit_rejected _ _ _ _ Hapi).
  repeat split.
Qed.

Lemma failed_submit_keeps_fields_witness :
  email (st (submitted (Samples.rejecting Js.VUndefined)
               Samples.no_context Samples.filled)) = "shop@example.com" /\
  password (st (submitted (Samples.rejecting Js.VUndefined)
                  Samples.no_context Samples.filled)) = "hunter2".
Proof.
  pose proof (failed_submit_keeps_fields (Samples.rejecting Js.VUndefined)
                Samples.no_context Samples.filled Js.VUndefined eq_refl) as H.
  exact (conj (proj1 H) (proj1 (proj2 H))).
Defined.

(** C6: in every state the view has one submit button; it is disabled and
    labelled "Signing in..." exactly when the submitting flag is set, and
    enabled and labelled "Sign in" otherwise.  The flag is set while the
    authentication call is in flight, and once the handler has finished, on
    success as on failure, the flag is false and the button is back to its
    enabled "Sign in" label. *)
Theorem submit_button_follows_flag :
  (forall s : State,
     exists b, by_tag "Button" (render s) = [b] /\
       prop_of "disabled" b = Some (PBool (loading s)) /\
       (text b = "Signing in..." <-> loading s = true) /\
       (text b = "Sign in" <-> loading s = false)) /\
  (forall (location : Router.Location) (w : World),
     loading (st (snd (submit_begin location w))) = true /\
     by_tag "Button" (render (st (snd (submit_begin location w)))) =
       [NElem "Button"
          [("type", PStr "submit"); ("className", PStr "w-full"); ("disabled", PBool true)]
          [NText "Signing in..."]]) /\
  (forall (api : Api.client) (location : Router.Location) (w : World),
     loading (st (submitted api location w)) = false /\
     by_tag "Button" (render (st (submitted api location w))) =
       [NElem "Button"
          [("type", PStr "submit"); ("className", PStr "w-full"); ("disabled", PBool false)]
          [NText "Sign in"]]).
Proof.
  split; [| split].
  - intros s. exists (submit_button s). split; [apply render_buttons |].
    split; [reflexivity |].
    unfold submit_button. cbn [text fold_right].
    destruct (loading s); split; split; (reflexivity || discriminate).
  - intros location w. rewrite render_buttons. split; reflexivity.
  - intros api location w. rewrite render_buttons. unfold submitted.
    destruct (api (email (st w)) (password (st w))) as [result | reason] eqn:Hapi.
    + by rewrite (submit_fulfilled _ _ _ _ Hapi).
    + by rewrite (submit_rejected _ _ _ _ Hapi).
Qed.

(** C7 as stated: after a successful login the navigation replaces the
    current history entry, so that back-navigation does not return to the
    login page.  This fails when the login page is also the entry behind the
    current one: the replacement leaves that entry in place, and going back
    shows the login page. *)
Lemma back_to_login_counterexample :
  ~ (forall (api : Api.client) (location : Router.Location) (w : World)
            (result : Api.LoginResult),
       api (email (st w)) (password (st w)) = Api.Fulfilled result ->
       Router.back (history (submitted api location w)) <>
       Some (Router.current (history w))).
Proof.
  intros H.
  apply (H Samples.accepting Samples.no_context Samples.revisited Samples.shop eq_refl).
  reflexivity.
Qed.

(** C7 (amended): after a successful login the one navigation to the
    redirect target is made with [replace: true].  When the target is a path
    string, in the history model of the routing collaborator the target
    takes the place of the login page's entry and the entries behind it stay
    as they were, so going back leads where it led from the login page; it
    does not lead to the login page unless the entry behind the login page
    was the login page already. *)
Theorem login_replaces_history_entry
    (api : Api.client) (location : Router.Location) (w : World)
    (result : Api.LoginResult) :
  api (email (st w)) (password (st w)) = Api.Fulfilled result ->
  navigations (trace (submitted api location w)) =
    navigations (trace w) ++ [(from location, true)] /\
  (forall path : string,
     from location = Js.VString path ->
     history (submitted api location w) =
       {| Router.behind := Router.behind (history w);
          Router.current := Js.VString path |} /\
     Router.back (history (submitted api location w)) = Router.back (history w) /\
     (Router.back (history w) <> Some (Router.current (history w)) ->
      Router.back (history (submitted api location w)) <>
      Some (Router.current (history w)))).
Proof.
  intros Hapi. split; [exact (fulfilled_navigations _ _ _ _ Hapi) |].
  intros path Hpath.
  assert (history (submitted api location w) =
          {| Router.behind := Router.behind (history w);
             Router.current := Js.VString path |}) as Hh.
  { unfold submitted. rewrite (submit_fulfilled _ _ _ _ Hapi).
    cbn [snd apply history]. rewrite Hpath. reflexivity. }
  rewrite Hh. split; [reflexivity |]. split; [reflexivity |].
  intros Hback. exact Hback.
Qed.

Lemma login_replaces_history_entry_witness :
  history (submitted Samples.accepting
             (Samples.came_from (Js.VString "/dashboard/settings")) Samples.filled) =
  {| Router.behind := [Js.VString "/"];
     Router.current := Js.VString "/dashboard/settings" |} /\
  Router.back (history (submitted Samples.accepting
                          (Samples.came_from (Js.VString "/dashboard/settings"))
                          Samples.filled)) <> Some (Js.VString "/login").
Proof.
  pose proof (proj2 (login_replaces_history_entry Samples.accepting
                       (Samples.came_from (Js.VString "/dashboard/settings"))
                       Samples.filled Samples.shop eq_refl)
                "/dashboard/settings" eq_refl) as [Hh [_ Hb]].
  split; [exact Hh | apply Hb; discriminate].
Defined.

(** C9: when a successful login's navigation context supplies a pathname
    that is falsy, the empty string for one, the handler navigates to
    ["/orders"] and not to the supplied pathname. *)
Theorem falsy_pathname_redirects_to_orders
    (api : Api.client) (location : Router.Location) (w : World)
    (result : Api.LoginResult) (p : Js.value) :
  api (email (st w)) (password (st w)) = Api.Fulfilled result ->
  supplied_pathname location = Some p ->
  Js.truthy p = false ->
  navigations (trace (submitted api location w)) =
  navigations (trace w) ++ [(Js.VString "/orders", true)].
Proof.
  intros Hapi Hp Hf. rewrite (fulfilled_navigations _ _ _ _ Hapi).
  by rewrite (from_supplied_falsy _ _ Hp Hf).
Qed.

Lemma falsy_pathname_redirects_to_orders_witness :
  supplied_pathname (Samples.came_from (Js.VString "")) = Some (Js.VString "") /\
  navigations (trace (submitted Samples.accepting
                        (Samples.came_from (Js.VString "")) Samples.filled)) =
  [(Js.VString "/orders", true)].
Proof.
  split; [reflexivity |].
  apply (falsy_pathname_redirects_to_orders Samples.accepting
           (Samples.came_from (Js.VString "")) Samples.filled
           Samples.shop (Js.VString ""));
    reflexivity.
Defined.

(** C10: when the collaborator rejects with an [Error] whose message is the
    empty string, the error state is the empty string and the error region
    is not rendered: the view has no element of the error region and shows
    the same text as with no error at all. *)
Theorem empty_message_shows_nothing
    (api : Api.client) (location : Router.Location) (w : World) :
  api (email (st w)) (password (st w)) = Api.Rejected (Js.VError "") ->
  error (st (submitted api location w)) = Some "" /\
  error_region (st (submitted api location w)) = NText "" /\
  by_class error_class (render (st (submitted api location w))) = [] /\
  text (render (st (submitted api location w))) =
    text (render (setError None (st (submitted api location w)))).
Proof.
  intros Hapi.
  assert (error (st (submitted api location w)) = Some "") as Herr.
  { unfold submitted. by rewrite (submit_rejected _ _ _ _ Hapi). }
  split; [exact Herr |]. split; [| split].
  - unfold error_region. by rewrite Herr.
  - rewrite render_error_region. by rewrite Herr.
  - by apply render_empty_message.
Qed.

Lemma empty_message_shows_nothing_witness :
  by_class error_class
    (render (st (submitted (Samples.rejecting (Js.VError ""))
                   Samples.no_context Samples.filled))) = [].
Proof.
  exact (proj1 (proj2 (proj2 (empty_message_shows_nothing
                                (Samples.rejecting (Js.VError ""))
                                Samples.no_context Samples.filled eq_refl)))).
Defined.

(** ** Claims about the not-found page *)

(** C8: the not-found view is a constant: it takes no input, and its tree
    holds exactly two links, the first to ["/orders"], the second to ["/"]. *)
Theorem not_found_links :
  length (by_tag "Link" NotFoundPage.NotFoundPage) = 2 /\
  links NotFoundPage.NotFoundPage = [PStr "/orders"; PStr "/"] /\
  by_tag "a" NotFoundPage.NotFoundPage = [].
Proof. repeat split. Qed.

(** ** Further properties of the login page *)

Import Interaction.

Lemma api_calls_app (t u : list effect) : api_calls (t ++ u) = api_calls t ++ api_calls u.
Proof. apply omap_app. Qed.

Lemma console_app (t u : list effect) : console (t ++ u) = console t ++ console u.
Proof. apply omap_app. Qed.

Lemma navigations_app (t u : list effect) :
  navigations (t ++ u) = navigations t ++ navigations u.
Proof. apply omap_app. Qed.

Section Outcome.

Variable api : Api.client.
Variable location : Router.Location.
Variable w : World.

(** The world after a submission, by the way the promise settled. *)
Lemma submitted_eq :
  submitted api location w =
  fold_left (fun w e => apply e w)
    (epilogue location (api (email (st w)) (password (st w)))) (in_flight w).
Proof.
  unfold submitted.
  destruct (api (email (st w)) (password (st w))) as [result | reason] eqn:Hapi.
  - by rewrite (submit_fulfilled _ _ _ _ Hapi).
  - by rewrite (submit_rejected _ _ _ _ Hapi).
Qed.

Lemma submitted_trace :
  trace (submitted api location w) =
  trace w ++ [PreventDefault; SetLoading true; SetError None;
              ApiLogin (email (st w)) (password (st w))]
          ++ epilogue location (api (email (st w)) (password (st w))).
Proof.
  rewrite submitted_eq.
  destruct (api (email (st w)) (password (st w))) as [result | reason];
    unfold in_flight; cbn [epilogue fold_left apply trace];
    by rewrite <- !app_assoc.
Qed.

Lemma submitted_st :
  st (submitted api location w) =
  {| email := email (st w); password := password (st w); loading := false;
     error := match api (email (st w)) (password (st w)) with
              | Api.Fulfilled _ => None
              | Api.Rejected reason => Some (display reason)
              end |}.
Proof.
  rewrite submitted_eq.
  by destruct (api (email (st w)) (password (st w))).
Qed.

End Outcome.

(** X1: no throw escapes the handler when the authentication promise is
    fulfilled, rejected with a value that is not an [Error], or rejected with
    an [Error] whose [message] is a plain string: the [catch] block takes
    the rejection, and the handler runs to its end and returns normally.
    (An [Error] whose [message] cannot be read as a string is outside the
    values modelled here, and nothing is said about it.) *)
Theorem handleSubmit_returns_normally
    (api : Api.client) (location : Router.Location) (w : World) :
  fst (submit api location w) = Returned tt.
Proof.
  destruct (api (email (st w)) (password (st w))) as [result | reason] eqn:Hapi.
  - by rewrite (submit_fulfilled _ _ _ _ Hapi).
  - by rewrite (submit_rejected _ _ _ _ Hapi).
Qed.

(** X2: a submission calls the authentication collaborator exactly once,
    with the email and password of the current state, whichever way the
    call ends. *)
Theorem one_login_call_per_submit
    (api : Api.client) (location : Router.Location) (w : World) :
  api_calls (trace (submitted api location w)) =
  api_calls (trace w) ++ [(email (st w), password (st w))].
Proof.
  rewrite submitted_trace, !api_calls_app. f_equal.
  by destruct (api (email (st w)) (password (st w))).
Qed.

(** X3: the console is written only after a fulfilled login, once, with
    "Logged in as" and the email of the merchant in the collaborator's
    result; a rejected login writes nothing. *)
Theorem console_only_on_success
    (api : Api.client) (location : Router.Location) (w : World) :
  console (trace (submitted api location w)) =
  console (trace w) ++
  match api (email (st w)) (password (st w)) with
  | Api.Fulfilled result =>
      [[Js.VString "Logged in as"; Js.VString (Api.email (Api.merchant result))]]
  | Api.Rejected _ => []
  end.
Proof.
  rewrite submitted_trace, !console_app. f_equal.
  by destruct (api (email (st w)) (password (st w))).
Qed.

(** X4: a submission navigates at most once, and it does so exactly when the
    login is fulfilled; it never pushes a history entry: the entries behind
    the current one are the same afterwards, and after a rejection the whole
    history is. *)
Theorem navigates_iff_fulfilled
    (api : Api.client) (location : Router.Location) (w : World) :
  navigations (trace (submitted api location w)) =
    navigations (trace w) ++
    match api (email (st w)) (password (st w)) with
    | Api.Fulfilled _ => [(from location, true)]
    | Api.Rejected _ => []
    end /\
  Router.behind (history (submitted api location w)) = Router.behind (history w) /\
  Router.current (history (submitted api location w)) =
    match api (email (st w)) (password (st w)) with
    | Api.Fulfilled _ => from location
    | Api.Rejected _ => Router.current (history w)
    end.
Proof.
  split.
  - rewrite submitted_trace, !navigations_app.
    replace (navigations [PreventDefault; SetLoading true; SetError None;
                          ApiLogin (email (st w)) (password (st w))])
      with (@nil (Js.value * bool)) by reflexivity.
    rewrite app_nil_l. f_equal.
    by destruct (api (email (st w)) (password (st w))).
  - rewrite submitted_eq.
    by destruct (api (email (st w)) (password (st w))).
Qed.

(** X5: resetting the submitting flag is the last thing a submission does:
    it follows the navigation after a fulfilled login and the setting of the
    error after a rejected one. *)
Theorem loading_reset_comes_last
    (api : Api.client) (location : Router.Location) (w : World) :
  last (trace (submitted api location w)) = Some (SetLoading false) /\
  match api (email (st w)) (password (st w)) with
  | Api.Fulfilled _ =>
      exists t, trace (submitted api location w) =
                t ++ [Navigate (from location) true; SetLoading false]
  | Api.Rejected reason =>
      exists t, trace (submitted api location w) =
                t ++ [SetError (Some (display reason)); SetLoading false]
  end.
Proof.
  rewrite submitted_trace.
  destruct (api (email (st w)) (password (st w))) as [result | reason];
    cbn [epilogue]; split.
  - rewrite app_assoc.
    change [ConsoleLog [Js.VString "Logged in as";
                        Js.VString (Api.email (Api.merchant result))];
            Navigate (from location) true; SetLoading false]
      with ([ConsoleLog [Js.VString "Logged in as";
                         Js.VString (Api.email (Api.merchant result))];
             Navigate (from location) true] ++ [SetLoading false]).
    rewrite app_assoc. apply last_snoc.
  - eexists. rewrite app_assoc.
    change [ConsoleLog [Js.VString "Logged in as";
                        Js.VString (Api.email (Api.merchant result))];
            Navigate (from location) true; SetLoading false]
      with ([ConsoleLog [Js.VString "Logged in as";
                         Js.VString (Api.email (Api.merchant result))]]
            ++ [Navigate (from location) true; SetLoading false]).
    rewrite app_assoc. reflexivity.
  - rewrite app_assoc.
    change [SetError (Some (display reason)); SetLoading false]
      with ([SetError (Some (display reason))] ++ [SetLoading false]).
    rewrite app_assoc. apply last_snoc.
  - eexists. rewrite app_assoc. reflexivity.
Qed.

(** X6: the redirect target is never falsy, and it is either the default
    ["/orders"] or exactly the pathname supplied in the navigation context;
    no other part of the context can become the target. *)
Theorem from_default_or_supplied (location : Router.Location) :
  Js.truthy (from location) = true /\
  (from location = Js.VString "/orders" \/
   supplied_pathname location = Some (from location)).
Proof.
  split; [apply from_truthy |].
  destruct (supplied_pathname location) as [p|] eqn:Hp.
  - destruct (Js.truthy p) eqn:Ht.
    + right. by rewrite (from_supplied_truthy _ _ Hp Ht).
    + left. exact (from_supplied_falsy _ _ Hp Ht).
  - left. exact (from_absent _ Hp).
Qed.

(** X7: when the collaborator rejects with an [Error], the error state is
    that error's message, whatever it says; a non-empty message is the one
    text of the error region on screen. *)
Theorem error_message_displayed
    (api : Api.client) (location : Router.Location) (w : World) (m : string) :
  api (email (st w)) (password (st w)) = Api.Rejected (Js.VError m) ->
  error (st (submitted api location w)) = Some m /\
  (m <> "" ->
   by_class error_class (render (st (submitted api location w))) =
   [NElem "div" [("className", PStr error_class)] [NText m]]).
Proof.
  intros Hapi.
  assert (error (st (submitted api location w)) = Some m) as Herr.
  { by rewrite submitted_st, Hapi. }
  split; [exact Herr |]. intros Hm.
  rewrite render_error_region, Herr.
  by destruct (String.eqb_spec m "").
Qed.

Lemma error_message_displayed_witness :
  error (st (submitted (Samples.rejecting (Js.VError "Network down"))
               Samples.no_context Samples.filled)) = Some "Network down" /\
  by_class error_class
    (render (st (submitted (Samples.rejecting (Js.VError "Network down"))
                   Samples.no_context Samples.filled))) =
  [NElem "div" [("className", PStr error_class)] [NText "Network down"]].
Proof.
  pose proof (error_message_displayed (Samples.rejecting (Js.VError "Network down"))
                Samples.no_context Samples.filled "Network down" eq_refl) as [H1 H2].
  split; [exact H1 | apply H2; discriminate].
Defined.

(** X8: a fulfilled login leaves the component with the error cleared, the
    submitting flag reset and both fields as they were, also when an error
    of an earlier attempt was showing. *)
Theorem fulfilled_login_clears_error
    (api : Api.client) (location : Router.Location) (w : World)
    (result : Api.LoginResult) :
  api (email (st w)) (password (st w)) = Api.Fulfilled result ->
  st (submitted api location w) =
  {| email := email (st w); password := password (st w);
     loading := false; error := None |}.
Proof. intros Hapi. by rewrite submitted_st, Hapi. Qed.

Lemma fulfilled_login_clears_error_witness :
  error (st Samples.filled) = Some "Invalid credentials" /\
  error (st (submitted Samples.accepting Samples.no_context Samples.filled)) = None.
Proof.
  split; [reflexivity |].
  exact (f_equal error
           (fulfilled_login_clears_error Samples.accepting Samples.no_context
              Samples.filled Samples.shop eq_refl)).
Defined.

(** X9: the component state a submission ends in depends only on the
    credentials submitted (and on the collaborator): an error or a
    submitting flag left by earlier events, the navigation context and the
    history have no influence on it. *)
Theorem outcome_depends_on_credentials_only
    (api : Api.client) (location location' : Router.Location) (w w' : World) :
  email (st w) = email (st w') ->
  password (st w) = password (st w') ->
  st (submitted api location w) = st (submitted api location' w').
Proof. intros He Hp. rewrite !submitted_st. by rewrite He, Hp. Qed.

Lemma outcome_depends_on_credentials_only_witness :
  st (submitted (Samples.rejecting Js.VNull) Samples.no_context Samples.filled) =
  st (submitted (Samples.rejecting Js.VNull) (Samples.came_from (Js.VString "/x"))
        (with_state (setError None) Samples.filled)).
Proof.
  apply (outcome_depends_on_credentials_only (Samples.rejecting Js.VNull)
           Samples.no_context (Samples.came_from (Js.VString "/x"))
           Samples.filled (with_state (setError None) Samples.filled));
    reflexivity.
Defined.

(** X10: submitting again with nothing typed in between leaves the component
    state as the first submission left it, provided the second call settles
    the way the first one did.  The two calls are answered by two
    collaborators, so that the second answer is free to differ. *)
Theorem resubmit_same_answer_same_state
    (api1 api2 : Api.client) (location location' : Router.Location) (w : World) :
  api2 (email (st w)) (password (st w)) = api1 (email (st w)) (password (st w)) ->
  st (submitted api2 location' (submitted api1 location w)) =
  st (submitted api1 location w).
Proof.
  intros Hsame.
  rewrite (submitted_st api2 location' (submitted api1 location w)).
  rewrite !submitted_st. cbn [email password]. by rewrite Hsame.
Qed.

Lemma resubmit_same_answer_same_state_witness :
  st (submitted (Samples.rejecting (Js.VError "Invalid credentials")) Samples.no_context
        (submitted (Samples.rejecting (Js.VError "Invalid credentials"))
           (Samples.came_from (Js.VString "/x")) Samples.filled)) =
  st (submitted (Samples.rejecting (Js.VError "Invalid credentials"))
        (Samples.came_from (Js.VString "/x")) Samples.filled).
Proof.
  apply (resubmit_same_answer_same_state
           (Samples.rejecting (Js.VError "Invalid credentials"))
           (Samples.rejecting (Js.VError "Invalid credentials"))
           (Samples.came_from (Js.VString "/x")) Samples.no_context Samples.filled).
  reflexivity.
Defined.

(** X11: a retry after a failure.  When the first attempt is rejected and
    the second, against a collaborator that now accepts, is fulfilled, the
    second call carries the same credentials as the first, the error of the
    first attempt is gone, and the one navigation goes to the redirect
    target. *)
Theorem retry_after_failure
    (api1 api2 : Api.client) (location : Router.Location) (w : World)
    (reason : Js.value) (result : Api.LoginResult) :
  api1 (email (st w)) (password (st w)) = Api.Rejected reason ->
  api2 (email (st w)) (password (st w)) = Api.Fulfilled result ->
  api_calls (trace (submitted api2 location (submitted api1 location w))) =
    api_calls (trace w) ++ [(email (st w), password (st w));
                            (email (st w), password (st w))] /\
  error (st (submitted api1 location w)) = Some (display reason) /\
  error (st (submitted api2 location (submitted api1 location w))) = None /\
  navigations (trace (submitted api2 location (submitted api1 location w))) =
    navigations (trace w) ++ [(from location, true)].
Proof.
  intros H1 H2.
  assert (st (submitted api1 location w) =
          {| email := email (st w); password := password (st w);
             loading := false; error := Some (display reason) |}) as Hst.
  { by rewrite submitted_st, H1. }
  assert (api2 (email (st (submitted api1 location w)))
               (password (st (submitted api1 location w))) = Api.Fulfilled result) as H2'.
  { by rewrite Hst. }
  split; [| split; [| split]].
  - rewrite (submitted_trace api2), H2', Hst. cbn [email password].
    rewrite (submitted_trace api1), H1, !api_calls_app.
    rewrite <- !app_assoc. reflexivity.
  - by rewrite Hst.
  - by rewrite submitted_st, H2'.
  - rewrite (fulfilled_navigations _ _ _ _ H2').
    by rewrite (rejected_navigations _ _ _ _ H1).
Qed.

Lemma retry_after_failure_witness :
  api_calls (trace (submitted Samples.accepting Samples.no_context
                      (submitted (Samples.rejecting Js.VNull)
                         Samples.no_context Samples.filled))) =
  [("shop@example.com", "hunter2"); ("shop@example.com", "hunter2")].
Proof.
  exact (proj1 (retry_after_failure (Samples.rejecting Js.VNull) Samples.accepting
                  Samples.no_context Samples.filled Js.VNull Samples.shop
                  eq_refl eq_refl)).
Defined.

(** ** The fields *)

Section Fields.

Variable s : State.

Lemma render_inputs :
  by_tag "Input" (render s) =
  [NElem "Input"
     [("id", PStr "email"); ("type", PStr "email"); ("autoComplete", PStr "email");
      ("value", PStr (email s)); ("onChange", PHandler OnEmailChange);
      ("required", PBool true)] [];
   NElem "Input"
     [("id", PStr "password"); ("type", PStr "password");
      ("autoComplete", PStr "current-password");
      ("value", PStr (password s)); ("onChange", PHandler OnPasswordChange);
      ("required", PBool true)] []].
Proof.
  unfold by_tag, render, error_region, and_then.
  destruct (Js.truthy (nullable (error s))); destruct (error s); reflexivity.
Qed.

Lemma type_into_email (v : string) : type_into "email" v s = setEmail v s.
Proof. unfold type_into, input_by_id. by rewrite render_inputs. Qed.

Lemma type_into_password (v : string) : type_into "password" v s = setPassword v s.
Proof. unfold type_into, input_by_id. by rewrite render_inputs. Qed.

End Fields.

(** X12: the inputs are bound to the state.  After the user changes the
    email input, that input shows the new text and the password input what it
    showed before; likewise with the roles exchanged; and neither change
    touches the error or the submitting flag. *)
Theorem typed_text_is_shown (s : State) (v : string) :
  (value_of "email" (type_into "email" v s) = Some (PStr v) /\
   value_of "password" (type_into "email" v s) = value_of "password" s) /\
  (value_of "password" (type_into "password" v s) = Some (PStr v) /\
   value_of "email" (type_into "password" v s) = value_of "email" s) /\
  (error (type_into "email" v s) = error s /\
   loading (type_into "email" v s) = loading s /\
   error (type_into "password" v s) = error s /\
   loading (type_into "password" v s) = loading s).
Proof.
  rewrite type_into_email, type_into_password.
  unfold value_of, input_by_id. rewrite !render_inputs.
  repeat split.
Qed.

(** X13: what is typed is what is sent: after the user has filled in both
    inputs, a submission calls the collaborator with exactly these two
    texts. *)
Theorem typed_credentials_are_sent
    (api : Api.client) (location : Router.Location) (w : World) (e p : string) :
  api_calls
    (trace (submitted api location
              (with_state (type_into "password" p)
                 (with_state (type_into "email" e) w)))) =
  api_calls (trace w) ++ [(e, p)].
Proof.
  rewrite submitted_trace, !api_calls_app. cbn [with_state st trace].
  rewrite type_into_password, type_into_email.
  cbn [setEmail setPassword email password]. f_equal.
  by destruct (api e p).
Qed.

(** X14: text typed while the authentication call is in flight is not lost.
    The call went out with the credentials of the submission, and when the
    promise settles the handler only writes the error and the submitting
    flag, so the fields keep what was typed meanwhile. *)
Theorem typing_in_flight_survives
    (location : Router.Location) (w : World) (settle : Api.settled) (e p : string) :
  let typed :=
    with_state (type_into "password" p)
      (with_state (type_into "email" e) (snd (submit_begin location w))) in
  let final := snd (resume (fst (submit_begin location w)) typed settle) in
  email (st final) = e /\
  password (st final) = p /\
  loading (st final) = false /\
  api_calls (trace final) = api_calls (trace w) ++ [(email (st w), password (st w))].
Proof.
  cbv zeta.
  assert (forall s, type_into "password" p (type_into "email" e s) =
                    setPassword p (setEmail e s)) as Htyped.
  { intros s. by rewrite type_into_password, type_into_email. }
  unfold submit_begin, handleSubmit. cbn [start fst snd].
  destruct settle as [result | reason];
    cbn -[type_into api_calls]; rewrite ?Htyped;
    (repeat split; try reflexivity);
    rewrite !api_calls_app; cbn; by rewrite !app_nil_r.
Qed.

(** ** More on the view *)

(** X15: the text the login view shows does not depend on the contents of
    the two fields: neither the email nor the password is ever rendered as
    text, only as the value of its input. *)
Theorem text_hides_credentials (s : State) (e p : string) :
  text (render (setPassword p (setEmail e s))) = text (render s).
Proof. by destruct s as [em pw ld [msg|]]. Qed.

(** X16: in every state, also while a submission is in flight, the view has
    exactly two inputs, an email and a password input in that order; both
    are required and neither is ever disabled. *)
Theorem inputs_required_never_disabled (s : State) :
  List.map (prop_of "type") (by_tag "Input" (render s)) =
    [Some (PStr "email"); Some (PStr "password")] /\
  List.map (prop_of "required") (by_tag "Input" (render s)) =
    [Some (PBool true); Some (PBool true)] /\
  List.map (prop_of "disabled") (by_tag "Input" (render s)) = [None; None].
Proof. rewrite render_inputs. repeat split. Qed.

(** X17: the error region is absent from the view exactly when there is no
    error or the error is the empty string. *)
Theorem error_region_absent_iff (s : State) :
  by_class error_class (render s) = [] <-> error s = None \/ error s = Some "".
Proof.
  rewrite render_error_region. destruct (error s) as [msg|].
  - destruct (String.eqb_spec msg "") as [-> | Hne].
    + split; [by right | done].
    + split; [discriminate |]. intros [H | H]; [discriminate | congruence].
  - split; [by left | done].
Qed.

(** X18: the login view attaches exactly three callbacks: the form's submit
    callback and one change callback per input.  The submit button has
    none: a submission always goes through the form. *)
Theorem login_view_callbacks (s : State) :
  handlers (render s) = [OnSubmit; OnEmailChange; OnPasswordChange] /\
  List.map (prop_of "onSubmit") (by_tag "form" (render s)) = [Some (PHandler OnSubmit)] /\
  List.map handlers (by_tag "Button" (render s)) = [[]].
Proof.
  rewrite render_buttons. split; [| split]; [| | reflexivity];
    unfold handlers, by_tag, render, error_region, and_then;
    destruct (Js.truthy (nullable (error s))); destruct (error s); reflexivity.
Qed.

(** ** More on the not-found page *)

(** X19: the not-found view offers nothing to interact with but its two
    links: it has no form, input or button and attaches no callback; the
    link labelled "Go to Orders" leads to ["/orders"] and the one labelled
    "Back to dashboard" to ["/"]. *)
Theorem not_found_is_static :
  handlers NotFoundPage.NotFoundPage = [] /\
  by_tag "form" NotFoundPage.NotFoundPage = [] /\
  by_tag "Input" NotFoundPage.NotFoundPage = [] /\
  by_tag "Button" NotFoundPage.NotFoundPage = [] /\
  List.map (fun l => (prop_of "to" l, text l)) (by_tag "Link" NotFoundPage.NotFoundPage) =
    [(Some (PStr "/orders"), "Go to Orders"); (Some (PStr "/"), "Back to dashboard")].
Proof. repeat split. Qed.
